(** * escpos_jobs: the scoped printer state and the job dispatcher

    A shallow embedding of [escpos_jobs/jobs.py].

    - Python values that reach the code ([None], booleans, integers, strings,
      lists, tuples, dicts with string keys, and the view returned by
      [dict.items()]) are the inductive type [pyval].
    - A [PrinterState] object is its instance dictionary (a [gmap]); attribute
      lookup falls back on the class attributes, as [getattr] does.
    - The printer is the collaborator: it is modelled by the list of commands
      it has received so far.
    - Methods of [Job] run in a state-and-exception monad [M] over the job;
      a raised exception keeps whatever mutation happened before it.
    - Attribute names are strings.  The model covers plain data attributes;
      the names of the object protocol ([__class__], [__dict__], ...) and of
      the method [get_kwargs] are set apart by [plain_name], and the theorems
      about overrides assume override keys are plain.
    - [Job.b64img] only forwards to [base64] and [PIL]; it is in no registry
      and is left out. *)

From Stdlib Require Import ZArith Ascii.
From stdpp Require Import gmap strings list.

Set Warnings "-register-all".

Local Open Scope Z_scope.
Local Open Scope string_scope.

(** ** Python values and exceptions *)

Inductive pyval : Type :=
| VNone
| VBool (b : bool)
| VInt (n : Z)
| VStr (s : string)
| VList (xs : list pyval)
| VTuple (xs : list pyval)
| VDict (d : list (string * pyval))
| VItems (d : list (string * pyval)).

(** [NotAContextManager] is what a [with] statement raises when its operand
    lacks [__enter__]/[__exit__]: an AttributeError up to Python 3.10, a
    TypeError from 3.11 on. *)
Inductive exn : Type :=
| TypeError
| AttributeError
| KeyError
| IndexError
| ValueError
| RecursionError
| NotAContextManager
| OtherError (tag : string).

Inductive outcome (A : Type) : Type :=
| Ok (a : A)
| Raise (e : exn).
Arguments Ok {A} a.
Arguments Raise {A} e.

Definition is_ok {A} (r : outcome A) : bool :=
  match r with Ok _ => true | Raise _ => false end.

(** Keyword arguments: a dict with string keys, in insertion order. *)
Abbreviation kwargs := (list (string * pyval)).

Fixpoint kw_get (kw : kwargs) (k : string) : option pyval :=
  match kw with
  | [] => None
  | (k', v) :: rest =>
      match kw_get rest k with
      | Some w => Some w
      | None => if decide (k' = k) then Some v else None
      end
  end.

(** Names of plain data attributes. *)
Definition dunder_prefix (s : string) : bool :=
  match s with
  | String a (String b _) =>
      if decide (a = "_"%char) then
        if decide (b = "_"%char) then true else false
      else false
  | _ => false
  end.

Definition plain_name (k : string) : bool :=
  negb (dunder_prefix k) && negb (bool_decide (k = "get_kwargs")).

Definition plain_kwargs (kw : kwargs) : bool :=
  forallb (fun p => plain_name p.1) kw.

(** Sequencing of fallible pure steps. *)
Fixpoint collect {A B} (f : A -> outcome B) (l : list A) : outcome (list B) :=
  match l with
  | [] => Ok []
  | a :: rest =>
      match f a with
      | Raise e => Raise e
      | Ok b =>
          match collect f rest with
          | Raise e => Raise e
          | Ok bs => Ok (b :: bs)
          end
      end
  end.

(** ** Primitive operations of the language used by the source *)

Fixpoint chars (s : string) : list pyval :=
  match s with
  | EmptyString => []
  | String a rest => VStr (String a EmptyString) :: chars rest
  end.

Definition item_tuple (p : string * pyval) : pyval := VTuple [VStr p.1; p.2].

(** [v.items()] *)
Definition py_items (v : pyval) : outcome pyval :=
  match v with
  | VDict d => Ok (VItems d)
  | _ => Raise AttributeError
  end.

Definition seq_index (xs : list pyval) (i : Z) : outcome pyval :=
  let n := Z.of_nat (length xs) in
  let j := (if i <? 0 then i + n else i)%Z in
  if ((j <? 0) || (n <=? j))%Z then Raise IndexError
  else match xs !! Z.to_nat j with
       | Some x => Ok x
       | None => Raise IndexError
       end.

(** [v[i]] for an integer [i].  A dict has string keys here, so an integer
    subscript misses; a [dict_items] view is not subscriptable. *)
Definition py_getitem (v : pyval) (i : Z) : outcome pyval :=
  match v with
  | VList xs | VTuple xs => seq_index xs i
  | VStr s => seq_index (chars s) i
  | VDict _ => Raise KeyError
  | VItems _ | VNone | VBool _ | VInt _ => Raise TypeError
  end.

(** The elements a [for] loop or an unpacking draws from [v]. *)
Definition py_iter (v : pyval) : outcome (list pyval) :=
  match v with
  | VList xs | VTuple xs => Ok xs
  | VStr s => Ok (chars s)
  | VDict d => Ok (map (fun p => VStr p.1) d)
  | VItems d => Ok (map item_tuple d)
  | VNone | VBool _ | VInt _ => Raise TypeError
  end.

(** [a, b = v] *)
Definition py_unpack2 (v : pyval) : outcome (pyval * pyval) :=
  match py_iter v with
  | Raise e => Raise e
  | Ok [a; b] => Ok (a, b)
  | Ok _ => Raise ValueError
  end.

Definition truthy (v : pyval) : bool :=
  match v with
  | VNone => false
  | VBool b => b
  | VInt n => negb (n =? 0)%Z
  | VStr s => negb (bool_decide (s = ""))
  | VList xs | VTuple xs => negb (bool_decide (length xs = 0%nat))
  | VDict d | VItems d => negb (bool_decide (length d = 0%nat))
  end.

Fixpoint hashable (v : pyval) : bool :=
  match v with
  | VNone | VBool _ | VInt _ | VStr _ => true
  | VTuple xs => forallb hashable xs
  | VList _ | VDict _ | VItems _ => false
  end.

(** ** The printer collaborator *)

Inductive command : Type :=
| CmdSet (style : kwargs)
| CmdTextln (text : pyval)
| CmdLn
| CmdCut.

Definition is_cut (c : command) : bool :=
  match c with CmdCut => true | _ => false end.

Definition cuts (log : list command) : nat := length (filter is_cut log).

(** ** class PrinterState *)

Module PrinterState.

Definition class_attrs : kwargs :=
  [ ("font", VStr "a"); ("bold", VBool false); ("underline", VInt 0);
    ("double_height", VBool false); ("double_width", VBool false);
    ("custom_size", VBool false); ("width", VInt 0); ("height", VInt 0);
    ("density", VInt 0); ("invert", VBool false); ("smooth", VBool false);
    ("flip", VBool false) ].

(** [getattr(self, k)]: the instance dictionary, then the class. *)
Definition getattr (self : gmap string pyval) (k : string) : outcome pyval :=
  match self !! k with
  | Some v => Ok v
  | None =>
      match kw_get class_attrs k with
      | Some v => Ok v
      | None => Raise AttributeError
      end
  end.

(** [setattr(self, k, v)] *)
Definition setattr (self : gmap string pyval) (k : string) (v : pyval)
  : gmap string pyval := <[k := v]> self.

Definition __init__ (kw : kwargs) : gmap string pyval :=
  fold_left (fun s p => setattr s p.1 p.2) kw ∅.

Definition keys : list string :=
  [ "font"; "bold"; "underline"; "double_height"; "double_width";
    "custom_size"; "width"; "height"; "density"; "invert"; "smooth";
    "flip" ].

Definition get_kwargs (self : gmap string pyval) : outcome kwargs :=
  collect (fun k => match getattr self k with
                    | Ok v => Ok (k, v)
                    | Raise e => Raise e
                    end) keys.

End PrinterState.

(** Two states are equal attribute for attribute. *)
Definition state_eq (s s' : gmap string pyval) : Prop :=
  forall k, PrinterState.getattr s k = PrinterState.getattr s' k.

(** Two states agree on every attribute outside [kw]. *)
Definition agree_outside (kw : kwargs) (s s' : gmap string pyval) : Prop :=
  forall k, k ∉ kw.*1 ->
            PrinterState.getattr s k = PrinterState.getattr s' k.

(** ** class Job: the record and the monad its methods run in *)

(** The bound methods a registry entry can hold. *)
Inductive method : Type :=
| MBold
| MCenter
| MRight
| MTextline
| MNewline.

Record Job : Type := mkJob {
  printer : list command;
  state : gmap string pyval;
  actions : gmap string method
}.

Definition M (A : Type) : Type := Job -> outcome A * Job.

Definition ret {A} (a : A) : M A := fun j => (Ok a, j).

Definition raise {A} (e : exn) : M A := fun j => (Raise e, j).

Definition bind {A B} (m : M A) (k : A -> M B) : M B :=
  fun j =>
    match m j with
    | (Ok a, j1) => k a j1
    | (Raise e, j1) => (Raise e, j1)
    end.

Definition lift {A} (r : outcome A) : M A := fun j => (r, j).

Notation "'let!' x ':=' m 'in' k" := (bind m (fun x => k))
  (at level 10, x pattern, m at level 100, k at level 200).
Notation "m '>>>' k" := (bind m (fun _ => k))
  (at level 100, k at level 200, right associativity).

(** [for c in xs: body(c)] *)
Fixpoint for_each {A} (xs : list A) (body : A -> M unit) : M unit :=
  match xs with
  | [] => ret tt
  | c :: rest => body c >>> for_each rest body
  end.

(** Calls into the printer. *)
Definition send (c : command) : M unit :=
  fun j => (Ok tt, mkJob (printer j ++ [c]) (state j) (actions j)).

Definition get_state : M (gmap string pyval) := fun j => (Ok (state j), j).

Definition put_state (s : gmap string pyval) : M unit :=
  fun j => (Ok tt, mkJob (printer j) s (actions j)).

(** [Job.set_state]: assign every keyword on the shared state object, then
    push the whole style to the printer. *)
Definition set_state (kw : kwargs) : M unit :=
  for_each kw (fun p =>
    let! s := get_state in put_state (PrinterState.setattr s p.1 p.2)) >>>
  let! s := get_state in
  let! style := lift (PrinterState.get_kwargs s) in
  send (CmdSet style).

(** ** class PrinterStateContext *)

Record PrinterStateContext : Type := mkContext {
  _kwargs : kwargs;
  was : option kwargs
}.

Definition PrinterStateContext__init__ (kw : kwargs) : PrinterStateContext :=
  mkContext kw None.

(** [{k: getattr(state, k) for k in kw}] *)
Definition snapshot (s : gmap string pyval) (kw : kwargs) : outcome kwargs :=
  collect (fun p => match PrinterState.getattr s p.1 with
                    | Ok v => Ok (p.1, v)
                    | Raise e => Raise e
                    end) kw.

(** [__enter__] returns the context with [was] filled in. *)
Definition __enter__ (self : PrinterStateContext) : M PrinterStateContext :=
  let! s := get_state in
  let! saved := lift (snapshot s (_kwargs self)) in
  set_state (_kwargs self) >>>
  ret (mkContext (_kwargs self) (Some saved)).

Definition __exit__ (self : PrinterStateContext) : M pyval :=
  match was self with
  | None => raise AttributeError
  | Some saved => set_state saved >>> ret VNone
  end.

(** ** The [with] statement *)

(** What [Job.wrapper] can hand to [with]: the closure [inner] it returns, or
    the context object a call of [inner] would build. *)
Inductive manager : Type :=
| Closure (kw : kwargs)
| Context (c : PrinterStateContext).

Definition wrapper (kw : kwargs) : manager := Closure kw.

(** The value of a call [inner()]: [PrinterStateContext(job=self, **kw)]. *)
Definition inner (kw : kwargs) : PrinterStateContext :=
  PrinterStateContext__init__ kw.

(** [with mgr: body].  The exit runs whether the body returns or raises; an
    exception of the body is raised again unless the exit returns a true
    value. *)
Definition with_stmt (mgr : manager) (body : M unit) : M unit :=
  match mgr with
  | Closure _ => raise NotAContextManager
  | Context c =>
      let! c1 := __enter__ c in
      fun j1 =>
        match body j1 with
        | (Ok _, j2) => (__exit__ c1 >>> ret tt) j2
        | (Raise e, j2) =>
            (let! r := __exit__ c1 in
             if truthy r then ret tt else raise e) j2
        end
  end.

(** A block run under a properly built context. *)
Definition scoped (kw : kwargs) (body : M unit) : M unit :=
  with_stmt (Context (inner kw)) body.

Fixpoint nested (scopes : list kwargs) (body : M unit) : M unit :=
  match scopes with
  | [] => body
  | kw :: rest => scoped kw (nested rest body)
  end.

(** ** Handlers and dispatch *)

Definition get_actions : gmap string method := {[ "bold" := MBold ]}.

Section Handlers.

(** [self.process], as seen from inside a handler. *)
Variable self_process : pyval -> M unit.

Definition block (kw : kwargs) (content : pyval) : M unit :=
  with_stmt (wrapper kw)
    (let! cs := lift (py_iter content) in for_each cs self_process).

Definition bold (content : pyval) : M unit :=
  block [("bold", VBool true)] content.

Definition center (content : pyval) : M unit :=
  block [("align", VStr "center")] content.

Definition right (content : pyval) : M unit :=
  block [("align", VStr "right")] content.

Definition textline (text : pyval) : M unit := send (CmdTextln text).

Definition newline : M unit := send CmdLn.

(** [action(args)]: [newline] takes no argument besides [self]. *)
Definition call (action : method) (args : pyval) : M unit :=
  match action with
  | MBold => bold args
  | MCenter => center args
  | MRight => right args
  | MTextline => textline args
  | MNewline => raise TypeError
  end.

(** [self.actions[name]]: an unhashable key is a TypeError, a key the
    registry lacks a KeyError. *)
Definition lookup_action (name : pyval) : M method :=
  fun j =>
    if hashable name then
      match name with
      | VStr s =>
          match actions j !! s with
          | Some a => (Ok a, j)
          | None => (Raise KeyError, j)
          end
      | _ => (Raise KeyError, j)
      end
    else (Raise TypeError, j).

Definition process_body (msg : pyval) : M unit :=
  let! items := lift (py_items msg) in
  let! first := lift (py_getitem items 0%Z) in
  let! (action_name, args) := lift (py_unpack2 first) in
  let! action := lookup_action action_name in
  call action args.

End Handlers.

(** [depth] is the number of nested calls of [process] the interpreter still
    allows before it raises RecursionError. *)
Fixpoint process (depth : nat) (msg : pyval) : M unit :=
  process_body
    (fun c => match depth with
              | O => raise RecursionError
              | S d => process d c
              end) msg.

Definition print (depth : nat) (msg : pyval) : M unit :=
  process depth msg >>> send CmdCut.

(** [Job.__init__] on a printer that has received [log] so far. *)
Definition Job__init__ (log : list command) : outcome unit * Job :=
  match set_state [] (mkJob log (PrinterState.__init__ []) ∅) with
  | (r, j) => (r, mkJob (printer j) (state j) get_actions)
  end.

(** ** class JSONJob *)

Record JSONJob : Type := mkJSONJob {
  base : Job;
  meta : pyval;
  contents : pyval
}.

Fixpoint dict_pop (k : string) (d : list (string * pyval))
  : option (pyval * list (string * pyval)) :=
  match d with
  | [] => None
  | (k', v) :: rest =>
      if decide (k' = k) then Some (v, rest)
      else match dict_pop k rest with
           | Some (w, rest') => Some (w, (k', v) :: rest')
           | None => None
           end
  end.

Definition JSONJob__init__ (log : list command) (data : list (string * pyval))
  : outcome JSONJob :=
  match Job__init__ log with
  | (Raise e, _) => Raise e
  | (Ok _, j) =>
      match default (VNone, data) (dict_pop "meta" data) with
      | (m, data1) =>
          match dict_pop "contents" data1 with
          | Some (cs, _) => Ok (mkJSONJob j m cs)
          | None => Raise KeyError
          end
      end
  end.

(** [for c in self.contents: pass], run on the job inside [self]. *)
Definition do_print (self : JSONJob) : outcome unit * JSONJob :=
  match (let! cs := lift (py_iter (contents self)) in
         for_each cs (fun _ => ret tt)) (base self) with
  | (r, j) => (r, mkJSONJob j (meta self) (contents self))
  end.

(** * Properties *)

(** ** Sample inputs *)

(** A job just built on a printer that has received nothing yet. *)
Definition fresh : Job := (Job__init__ []).2.

(** The style with every attribute at its default except [bold]. *)
Definition style (b : bool) : kwargs :=
  [ ("font", VStr "a"); ("bold", VBool b); ("underline", VInt 0);
    ("double_height", VBool false); ("double_width", VBool false);
    ("custom_size", VBool false); ("width", VInt 0); ("height", VInt 0);
    ("density", VInt 0); ("invert", VBool false); ("smooth", VBool false);
    ("flip", VBool false) ].

(** [{'bold': [{'printline': 'hi'}]}] *)
Definition bold_hi : pyval :=
  VDict [("bold", VList [VDict [("printline", VStr "hi")]])].

(** [{'center': [{'println': 'a'}, {'println': 'b'}]}] *)
Definition center_lines : pyval :=
  VList [VDict [("println", VStr "a")]; VDict [("println", VStr "b")]].

Definition center_ab : pyval := VDict [("center", center_lines)].

(** [{'bold': []}] *)
Definition bold_empty : pyval := VDict [("bold", VList [])].

(** [{'nosuch': 'x'}] *)
Definition unknown_node : pyval := VDict [("nosuch", VStr "x")].

(** ** Attribute lookup and assignment *)

(** The state after assigning every keyword of [kw] in order. *)
Definition assign (kw : kwargs) (s : gmap string pyval) : gmap string pyval :=
  fold_left (fun s p => PrinterState.setattr s p.1 p.2) kw s.

(** The commands a run adds to the printer. *)
Definition emitted (before after : Job) : list command :=
  drop (length (printer before)) (printer after).

(** A computation that leaves the state as it found it, attribute for
    attribute, whether it returns or raises. *)
Definition restores (m : M unit) : Prop :=
  forall j, state_eq (state (m j).2) (state j).

(** [d[k]] on a dict written as its item list. *)
Fixpoint dict_get (k : string) (d : list (string * pyval)) : option pyval :=
  match d with
  | [] => None
  | (k', v) :: rest => if decide (k' = k) then Some v else dict_get k rest
  end.

(** The style the printer is in: that of the last [set] it received. *)
Fixpoint last_style (log : list command) : option kwargs :=
  match log with
  | [] => None
  | c :: rest =>
      match last_style rest with
      | Some st => Some st
      | None => match c with CmdSet st => Some st | _ => None end
      end
  end.

(** The printer is in the style the state object describes. *)
Definition synced (j : Job) : Prop :=
  exists st, last_style (printer j) = Some st /\
             PrinterState.get_kwargs (state j) = Ok st.

(** The module-level sample document [foo]. *)
Definition foo : list (string * pyval) :=
  [ ("meta", VDict []);
    ("contents", VList
       [ VDict [("printline", VStr "asdf")];
         VDict [("image", VStr "asdfasd")];
         VDict [("center", VList
           [ VDict [("println", VStr "foo")];
             VDict [("inverted", VList
               [ VDict [("double_height", VList
                   [ VDict [("double_height", VList
                       [ VDict [("printline", VStr "asdf")];
                         VDict [("b64img", VStr "adsf12f21q3123")] ])] ])] ])]
           ])] ]) ].

Lemma kw_get_None (kw : kwargs) (k : string) :
  kw_get kw k = None <-> k ∉ kw.*1.
Proof.
  induction kw as [|[k' v] rest IH]; simpl.
  - split; [intros _; apply not_elem_of_nil | done].
  - rewrite not_elem_of_cons, <- IH.
    destruct (kw_get rest k) as [w|], (decide (k' = k)) as [->|Hne];
      intuition congruence.
Qed.

Lemma kw_get_Some_elem (kw : kwargs) (k : string) (v : pyval) :
  kw_get kw k = Some v -> k ∈ kw.*1.
Proof.
  intros H. destruct (decide (k ∈ kw.*1)) as [|Hn]; [done|].
  apply kw_get_None in Hn. congruence.
Qed.

Lemma getattr_insert (s : gmap string pyval) (k' k : string) (v : pyval) :
  PrinterState.getattr (<[k' := v]> s) k
  = if decide (k' = k) then Ok v else PrinterState.getattr s k.
Proof.
  unfold PrinterState.getattr. rewrite lookup_insert.
  destruct (decide (k' = k)); reflexivity.
Qed.

Lemma getattr_assign (kw : kwargs) (s : gmap string pyval) (k : string) :
  PrinterState.getattr (assign kw s) k
  = match kw_get kw k with
    | Some v => Ok v
    | None => PrinterState.getattr s k
    end.
Proof.
  revert s. induction kw as [|[k' v] rest IH]; intros s; simpl; [done|].
  unfold assign in *. simpl. rewrite IH.
  destruct (kw_get rest k); [done|].
  unfold PrinterState.setattr. rewrite getattr_insert.
  by destruct (decide (k' = k)).
Qed.

Lemma collect_total {A B} (f : A -> outcome B) (l : list A) :
  (forall a, a ∈ l -> exists b, f a = Ok b) ->
  exists bs, collect f l = Ok bs.
Proof.
  induction l as [|a rest IH]; intros H; simpl; [eauto|].
  destruct (H a) as [b ->]; [left|].
  destruct IH as [bs ->]; [|eauto].
  intros a' Ha'. apply H. by right.
Qed.

Lemma getattr_declared (s : gmap string pyval) (k : string) :
  k ∈ PrinterState.keys -> exists v, PrinterState.getattr s k = Ok v.
Proof.
  intros Hk. unfold PrinterState.getattr.
  destruct (s !! k) as [v|]; [eauto|].
  unfold PrinterState.keys in Hk.
  repeat (apply elem_of_cons in Hk as [->|Hk]; [vm_compute; eauto|]).
  by apply elem_of_nil in Hk.
Qed.

Lemma get_kwargs_total (s : gmap string pyval) :
  exists style, PrinterState.get_kwargs s = Ok style.
Proof.
  apply collect_total. intros k Hk.
  destruct (getattr_declared s k Hk) as [v ->]. eauto.
Qed.

(** The pushed style carries exactly the declared keys, in order. *)
Lemma get_kwargs_keys (s : gmap string pyval) (style : kwargs) :
  PrinterState.get_kwargs s = Ok style -> style.*1 = PrinterState.keys.
Proof.
  unfold PrinterState.get_kwargs. generalize PrinterState.keys.
  intros l. revert style. induction l as [|k rest IH]; intros style; simpl.
  - by intros [= <-].
  - destruct (PrinterState.getattr s k); [|done].
    destruct (collect _ rest) as [bs|] eqn:E; [|done].
    intros [= <-]. simpl. f_equal. by apply IH.
Qed.

(** ** [set_state] *)

Lemma assign_loop (kw : kwargs) (j : Job) :
  for_each kw (fun p =>
    let! s := get_state in put_state (PrinterState.setattr s p.1 p.2)) j
  = (Ok tt, mkJob (printer j) (assign kw (state j)) (actions j)).
Proof.
  revert j. induction kw as [|p rest IH]; intros j.
  - by destruct j.
  - simpl. unfold bind at 1. unfold bind at 1.
    unfold get_state, put_state. simpl. by rewrite IH.
Qed.

Lemma set_state_run (kw : kwargs) (j : Job) :
  exists style,
    PrinterState.get_kwargs (assign kw (state j)) = Ok style /\
    set_state kw j
    = (Ok tt, mkJob (printer j ++ [CmdSet style]) (assign kw (state j))
                    (actions j)).
Proof.
  destruct (get_kwargs_total (assign kw (state j))) as [style Hs].
  exists style. split; [done|].
  unfold set_state. unfold bind at 1. rewrite assign_loop.
  unfold bind, get_state, lift, send. simpl. by rewrite Hs.
Qed.

(** ** The context: what is saved, and what entry and exit do *)

Lemma snapshot_spec (s : gmap string pyval) (kw saved : kwargs) :
  snapshot s kw = Ok saved ->
  saved.*1 = kw.*1 /\
  forall k v, kw_get saved k = Some v -> PrinterState.getattr s k = Ok v.
Proof.
  unfold snapshot. revert saved.
  induction kw as [|[k' v'] rest IH]; intros saved; simpl.
  - intros [= <-]. split; [done|]. intros k v [=].
  - destruct (PrinterState.getattr s k') as [w|] eqn:Hw; [|done].
    destruct (collect _ rest) as [bs|]; [|done].
    intros [= <-]. destruct (IH bs eq_refl) as [Hkeys Hvals].
    split; [simpl; by f_equal|].
    intros k v. simpl. destruct (kw_get bs k) as [u|] eqn:Hu.
    + intros [= <-]. by apply Hvals.
    + destruct (decide (k' = k)) as [<-|]; [|done].
      intros [= <-]. exact Hw.
Qed.

Lemma enter_run (kw : kwargs) (j : Job) :
  __enter__ (inner kw) j
  = match snapshot (state j) kw with
    | Raise e => (Raise e, j)
    | Ok saved => (Ok (mkContext kw (Some saved)), (set_state kw j).2)
    end.
Proof.
  unfold __enter__, inner, PrinterStateContext__init__. simpl.
  unfold bind at 1. unfold get_state at 1.
  unfold bind at 1. unfold lift at 1.
  destruct (snapshot (state j) kw) as [saved|e]; [|done].
  destruct (set_state_run kw j) as (style & _ & Hrun).
  unfold bind. by rewrite Hrun.
Qed.

Lemma exit_run (kw saved : kwargs) (j : Job) :
  __exit__ (mkContext kw (Some saved)) j = (Ok VNone, (set_state saved j).2).
Proof.
  unfold __exit__. simpl.
  destruct (set_state_run saved j) as (style & _ & Hrun).
  unfold bind. by rewrite Hrun.
Qed.

(** Exit gives back, for the saved keys, the values found at entry, and
    leaves every other attribute as the body left it. *)
Lemma exit_restores_saved (s : gmap string pyval) (kw saved : kwargs)
      (j2 : Job) (k : string) :
  snapshot s kw = Ok saved ->
  PrinterState.getattr (state (set_state saved j2).2) k
  = if decide (k ∈ kw.*1) then PrinterState.getattr s k
    else PrinterState.getattr (state j2) k.
Proof.
  intros Hsnap. destruct (snapshot_spec _ _ _ Hsnap) as [Hkeys Hvals].
  destruct (set_state_run saved j2) as (style & _ & ->). simpl.
  rewrite getattr_assign.
  destruct (kw_get saved k) as [v|] eqn:Hv.
  - rewrite decide_True; [by rewrite (Hvals _ _ Hv)|].
    rewrite <- Hkeys. by eapply kw_get_Some_elem.
  - apply kw_get_None in Hv. rewrite Hkeys in Hv. by rewrite decide_False.
Qed.

Lemma enter_frame (kw : kwargs) (j : Job) (c1 : PrinterStateContext)
      (j1 : Job) :
  __enter__ (inner kw) j = (Ok c1, j1) ->
  agree_outside kw (state j1) (state j).
Proof.
  rewrite enter_run. destruct (snapshot (state j) kw); [|done].
  intros [= _ <-] k Hk.
  destruct (set_state_run kw j) as (style & _ & ->). simpl.
  rewrite getattr_assign. apply kw_get_None in Hk. by rewrite Hk.
Qed.

Lemma exit_after_enter (kw : kwargs) (j : Job) (c1 : PrinterStateContext)
      (j1 j2 : Job) :
  __enter__ (inner kw) j = (Ok c1, j1) ->
  agree_outside kw (state j2) (state j) ->
  exists j3, __exit__ c1 j2 = (Ok VNone, j3) /\
             state_eq (state j3) (state j).
Proof.
  rewrite enter_run. destruct (snapshot (state j) kw) as [saved|] eqn:Hs;
    [|done].
  intros [= <- _] Hout. eexists. split; [apply exit_run|].
  intros k. rewrite (exit_restores_saved _ _ _ _ _ Hs).
  destruct (decide (k ∈ kw.*1)); [done|]. by apply Hout.
Qed.

Lemma scoped_restores (kw : kwargs) (body : M unit) :
  restores body -> restores (scoped kw body).
Proof.
  intros Hbody j. unfold scoped, with_stmt. unfold bind at 1.
  destruct (__enter__ (inner kw) j) as [[c1|e] j1] eqn:Henter.
  - pose proof (enter_frame _ _ _ _ Henter) as Hframe.
    specialize (Hbody j1).
    destruct (body j1) as [r j2]. simpl in Hbody.
    destruct (exit_after_enter kw j c1 j1 j2 Henter) as (j3 & Hexit & Heq).
    { intros k Hk. rewrite Hbody. by apply Hframe. }
    destruct r; unfold bind; rewrite Hexit; simpl; exact Heq.
  - rewrite enter_run in Henter.
    destruct (snapshot (state j) kw); [done|].
    injection Henter as _ <-. done.
Qed.

Lemma nested_restores (scopes : list kwargs) (body : M unit) :
  restores body -> restores (nested scopes body).
Proof.
  intros Hbody. induction scopes as [|kw rest IH]; simpl; [done|].
  by apply scoped_restores.
Qed.

Lemma send_restores (c : command) : restores (send c).
Proof. intros j k. reflexivity. Qed.

(** ** Scope restoration *)

(** C1.  Scope restore is an exact round trip.  Whatever the state [j] at
    entry (the defaults, or a state reached under enclosing scopes) and
    whatever the override [kw]: when [__enter__] succeeds, running [__exit__]
    on any state that still agrees with the entered state outside the
    overridden keys succeeds and yields a state equal to [j] attribute for
    attribute.  Consequently a block nested under any list of scopes, around
    a body that restores the state it was given, restores the state that held
    before the outermost entry. *)
Theorem scope_restore_roundtrip (kw : kwargs) (j : Job)
        (scopes : list kwargs) (body : M unit) :
  plain_kwargs kw = true ->
  forallb plain_kwargs scopes = true ->
  restores body ->
  (forall c1 j1 j2,
      __enter__ (inner kw) j = (Ok c1, j1) ->
      agree_outside kw (state j2) (state j1) ->
      exists j3, __exit__ c1 j2 = (Ok VNone, j3) /\
                 state_eq (state j3) (state j))
  /\ restores (nested scopes body)
  /\ restores (scoped kw (nested scopes body)).
Proof.
  intros _ _ Hbody. split; [|split].
  - intros c1 j1 j2 Henter Hout.
    apply (exit_after_enter kw j c1 j1 j2 Henter).
    intros k Hk. rewrite (Hout k Hk).
    by apply (enter_frame _ _ _ _ Henter).
  - by apply nested_restores.
  - by apply scoped_restores, nested_restores.
Qed.

Lemma scope_restore_roundtrip_witness :
  let kw := [("bold", VBool true)] in
  let scopes := [[("bold", VBool true)];
                 [("bold", VBool true); ("width", VInt 2)]] in
  let body := send (CmdTextln (VStr "hi")) in
  let j := (Job__init__ []).2 in
  plain_kwargs kw = true /\
  forallb plain_kwargs scopes = true /\
  restores body /\
  ((forall c1 j1 j2,
      __enter__ (inner kw) j = (Ok c1, j1) ->
      agree_outside kw (state j2) (state j1) ->
      exists j3, __exit__ c1 j2 = (Ok VNone, j3) /\
                 state_eq (state j3) (state j))
   /\ restores (nested scopes body)
   /\ restores (scoped kw (nested scopes body))).
Proof.
  intros kw scopes body j.
  split; [reflexivity|]. split; [reflexivity|].
  split; [apply send_restores|].
  apply (scope_restore_roundtrip kw j scopes body);
    [reflexivity | reflexivity | apply send_restores].
Defined.

(** ** Non-clobbering merge *)

(** C2.  [set_state] changes only the attributes named in the override: it
    never fails, every attribute outside the override keeps the value it had
    (in the instance dictionary and as seen by [getattr], so nothing falls
    back to a class default), every named attribute takes its new value, and
    the registry is untouched. *)
Theorem set_state_non_clobbering (kw : kwargs) (j : Job) (k : string) :
  plain_kwargs kw = true ->
  k ∉ kw.*1 ->
  (set_state kw j).1 = Ok tt /\
  state (set_state kw j).2 !! k = state j !! k /\
  PrinterState.getattr (state (set_state kw j).2) k
  = PrinterState.getattr (state j) k /\
  (forall k' v, kw_get kw k' = Some v ->
     PrinterState.getattr (state (set_state kw j).2) k' = Ok v) /\
  actions (set_state kw j).2 = actions j.
Proof.
  intros _ Hk. destruct (set_state_run kw j) as (style & _ & ->). simpl.
  assert (Hraw : assign kw (state j) !! k = state j !! k).
  { generalize (state j). induction kw as [|[k' v] rest IH]; intros s;
      [done|].
    apply not_elem_of_cons in Hk as [Hne Hrest].
    unfold assign in *. simpl. rewrite (IH Hrest).
    unfold PrinterState.setattr. by rewrite lookup_insert_ne. }
  repeat split; [exact Hraw| |].
  - rewrite getattr_assign. apply kw_get_None in Hk. by rewrite Hk.
  - intros k' v Hv. rewrite getattr_assign. by rewrite Hv.
Qed.

Lemma set_state_non_clobbering_witness :
  let j := (set_state [("width", VInt 3); ("invert", VBool true)]
              (Job__init__ []).2).2 in
  let kw := [("bold", VBool true)] in
  plain_kwargs kw = true /\
  ("width" ∉ kw.*1) /\
  PrinterState.getattr (state (set_state kw j).2) "width" = Ok (VInt 3).
Proof.
  intros j kw.
  assert (Hk : "width" ∉ kw.*1).
  { intros H. apply list_elem_of_singleton in H. discriminate H. }
  split; [reflexivity|]. split; [exact Hk|].
  destruct (set_state_non_clobbering kw j "width" eq_refl Hk)
    as (_ & _ & -> & _).
  reflexivity.
Defined.

(** ** Failure-safe restoration *)

(** C3.  When the body of an entered scope raises, [__exit__] still runs on
    the state the body left: it re-applies the saved values, pushes the
    restored style to the printer, and only then is the body's exception
    raised again.  The job that results is the one the normal path would
    have produced from the same state. *)
Theorem exit_runs_on_error (kw : kwargs) (body : M unit) (j j1 j2 : Job)
        (c1 : PrinterStateContext) (e : exn) :
  plain_kwargs kw = true ->
  __enter__ (inner kw) j = (Ok c1, j1) ->
  body j1 = (Raise e, j2) ->
  exists j3 style,
    __exit__ c1 j2 = (Ok VNone, j3) /\
    scoped kw body j = (Raise e, j3) /\
    printer j3 = (printer j2 ++ [CmdSet style])%list /\
    PrinterState.get_kwargs (state j3) = Ok style /\
    (forall k, k ∈ kw.*1 ->
       PrinterState.getattr (state j3) k = PrinterState.getattr (state j) k) /\
    (forall k, k ∉ kw.*1 ->
       PrinterState.getattr (state j3) k = PrinterState.getattr (state j2) k) /\
    (forall body' : M unit,
       body' j1 = (Ok tt, j2) -> scoped kw body' j = (Ok tt, j3)).
Proof.
  intros _ Henter Hbody.
  pose proof Henter as Henter'. rewrite enter_run in Henter'.
  destruct (snapshot (state j) kw) as [saved|] eqn:Hs; [|done].
  injection Henter' as <- Hj1.
  destruct (set_state_run saved j2) as (style & Hstyle & Hrun).
  exists (set_state saved j2).2, style.
  assert (Hexit : __exit__ (mkContext kw (Some saved)) j2
                  = (Ok VNone, (set_state saved j2).2)) by apply exit_run.
  split; [exact Hexit|].
  split.
  { unfold scoped, with_stmt. unfold bind at 1. rewrite Henter, Hbody.
    unfold bind. by rewrite Hexit. }
  split; [by rewrite Hrun|].
  split; [by rewrite Hrun|].
  split; [|split].
  - intros k Hk. rewrite (exit_restores_saved _ _ _ _ _ Hs).
    by rewrite decide_True.
  - intros k Hk. rewrite (exit_restores_saved _ _ _ _ _ Hs).
    by rewrite decide_False.
  - intros body' Hbody'.
    unfold scoped, with_stmt. unfold bind at 1. rewrite Henter, Hbody'.
    unfold bind. by rewrite Hexit.
Qed.

Lemma exit_runs_on_error_witness :
  let kw := [("bold", VBool true)] in
  let body := send (CmdTextln (VStr "hi")) >>> raise (OtherError "paper out") in
  let j := (Job__init__ []).2 in
  let j1 := (__enter__ (inner kw) j).2 in
  let j2 := (body j1).2 in
  plain_kwargs kw = true /\
  __enter__ (inner kw) j
  = (Ok (mkContext kw (Some [("bold", VBool false)])), j1) /\
  body j1 = (Raise (OtherError "paper out"), j2) /\
  exists j3, scoped kw body j = (Raise (OtherError "paper out"), j3) /\
             PrinterState.getattr (state j3) "bold" = Ok (VBool false).
Proof.
  intros kw body j j1 j2.
  assert (Henter : __enter__ (inner kw) j
                   = (Ok (mkContext kw (Some [("bold", VBool false)])), j1))
    by (vm_compute; reflexivity).
  assert (Hbody : body j1 = (Raise (OtherError "paper out"), j2))
    by reflexivity.
  split; [reflexivity|]. split; [exact Henter|]. split; [exact Hbody|].
  destruct (exit_runs_on_error kw body j j1 j2 _ _ eq_refl Henter Hbody)
    as (j3 & style & _ & Hrun & _ & _ & Hin & _).
  exists j3. split; [exact Hrun|].
  rewrite Hin; [reflexivity|]. apply list_elem_of_singleton. reflexivity.
Defined.

(** ** Dispatch *)

Lemma block_raises (self_process : pyval -> M unit) (kw : kwargs)
      (content : pyval) (j : Job) :
  block self_process kw content j = (Raise NotAContextManager, j).
Proof. reflexivity. Qed.

Lemma process_body_dict (self_process : pyval -> M unit)
      (d : list (string * pyval)) (j : Job) :
  process_body self_process (VDict d) j = (Raise TypeError, j).
Proof. reflexivity. Qed.

Lemma pass_loop (cs : list pyval) (j : Job) :
  for_each cs (fun _ => ret tt) j = (Ok tt, j).
Proof.
  induction cs as [|c rest IH]; [done|].
  simpl. unfold bind, ret. simpl. exact IH.
Qed.

(** C8.  Every block handler fails at its [with] statement: [wrapper]
    returns the closure [inner], never a context, so the handler raises with
    the job exactly as it was - no override applied, no command sent - and
    whatever [self.process] is, no child reaches it. *)
Theorem block_handlers_raise (self_process : pyval -> M unit)
        (content : pyval) (j : Job) :
  bold self_process content j = (Raise NotAContextManager, j) /\
  center self_process content j = (Raise NotAContextManager, j) /\
  right self_process content j = (Raise NotAContextManager, j).
Proof.
  split; [apply (block_raises self_process [("bold", VBool true)])|].
  split; [apply (block_raises self_process [("align", VStr "center")])|].
  apply (block_raises self_process [("align", VStr "right")]).
Qed.

(** C9.  For every mapping message, [process] raises TypeError at
    [msg.items()[0]]: the job is unchanged, whatever its registry holds and
    whatever handlers would do. *)
Theorem process_mapping_raises_type_error (depth : nat)
        (d : list (string * pyval)) (j : Job) :
  py_items (VDict d) = Ok (VItems d) /\
  py_getitem (VItems d) 0 = Raise TypeError /\
  process depth (VDict d) j = (Raise TypeError, j) /\
  forall self_process : pyval -> M unit,
    process_body self_process (VDict d) j = (Raise TypeError, j).
Proof.
  split; [reflexivity|]. split; [reflexivity|]. split.
  - destruct depth; apply process_body_dict.
  - intros sp. apply process_body_dict.
Qed.

(** C10.  [JSONJob.do_print] walks the contents list and does nothing: it
    returns normally and the job - state, printer log, registry - is the one
    it started from.  On any contents at all the job is left unchanged. *)
Theorem do_print_is_noop (j : Job) (m : pyval) (cs : list pyval)
        (self : JSONJob) :
  do_print (mkJSONJob j m (VList cs)) = (Ok tt, mkJSONJob j m (VList cs)) /\
  (do_print self).2 = self.
Proof.
  split.
  - unfold do_print, bind, lift. simpl. by rewrite pass_loop.
  - destruct self as [b mt ct]. unfold do_print, bind, lift. simpl.
    destruct (py_iter ct) as [l|e]; [|done]. by rewrite pass_loop.
Qed.

(** ** Printing *)

(** C4.  On [{'bold': [{'printline': 'hi'}]}] a fresh job raises TypeError
    inside [process] and sends nothing: the printer holds only the baseline
    style pushed at construction, not the sequence style(bold), text line,
    style(not bold), cut.  A scope built from the context class around the
    text line does produce that sequence. *)
Theorem bold_hi_print_raises (depth : nat) :
  print depth bold_hi fresh = (Raise TypeError, fresh) /\
  printer fresh = [CmdSet (style false)] /\
  emitted fresh (print depth bold_hi fresh).2 = [] /\
  emitted fresh
    ((scoped [("bold", VBool true)] (textline (VStr "hi")) >>> send CmdCut)
       fresh).2
  = [CmdSet (style true); CmdTextln (VStr "hi"); CmdSet (style false);
     CmdCut].
Proof.
  assert (H : print depth bold_hi fresh = (Raise TypeError, fresh)).
  { assert (Hp : process depth bold_hi fresh = (Raise TypeError, fresh))
      by (destruct depth; apply process_body_dict).
    unfold print, bind. by rewrite Hp. }
  split; [exact H|]. rewrite H.
  split; [vm_compute; reflexivity|].
  split; vm_compute; reflexivity.
Qed.

(** C5.  On [{'bold': []}], a block of a registered action with nothing
    inside, a fresh job raises TypeError inside [process]: [print] never
    reaches its cut, and the printer holds the baseline style alone, where
    one cut was due after the block.  A [JSONJob] whose contents is that one
    node sends no cut from [do_print] either.  The same block run under the
    context class and followed by the cut of [print] does end in exactly one
    cut. *)
Theorem print_bold_block_never_cuts (depth : nat) (m : pyval) :
  print depth bold_empty fresh = (Raise TypeError, fresh) /\
  printer (print depth bold_empty fresh).2 = [CmdSet (style false)] /\
  cuts (printer (print depth bold_empty fresh).2) = 0%nat /\
  cuts (printer (base (do_print (mkJSONJob fresh m (VList [bold_empty]))).2))
  = 0%nat /\
  printer ((scoped [("bold", VBool true)] (ret tt) >>> send CmdCut) fresh).2
  = [CmdSet (style false); CmdSet (style true); CmdSet (style false); CmdCut].
Proof.
  assert (H : print depth bold_empty fresh = (Raise TypeError, fresh)).
  { assert (Hp : process depth bold_empty fresh = (Raise TypeError, fresh))
      by (destruct depth; apply process_body_dict).
    unfold print, bind. by rewrite Hp. }
  split; [exact H|]. rewrite H.
  split; [vm_compute; reflexivity|].
  split; [vm_compute; reflexivity|].
  split; vm_compute; reflexivity.
Qed.

(** C6.  The node [{'nosuch': 'x'}] names an action the registry lacks.  The
    registry lookup on that name would raise KeyError, yet [process] never
    gets there: it raises TypeError first, with the job unchanged. *)
Theorem unknown_action_raises_type_error (depth : nat) :
  actions fresh !! "nosuch" = None /\
  lookup_action (VStr "nosuch") fresh = (Raise KeyError, fresh) /\
  process depth unknown_node fresh = (Raise TypeError, fresh).
Proof.
  split; [vm_compute; reflexivity|].
  split; [vm_compute; reflexivity|].
  destruct depth; apply process_body_dict.
Qed.

(** C7.  On [{'center': [{'println': 'a'}, {'println': 'b'}]}] no line is
    ever printed centred: [process] raises TypeError on the node, the registry
    has no [center] entry, the [center] handler raises at its [with], a
    context built for [align] cannot even enter on a fresh state because
    [PrinterState] declares no [align], and no style pushed to the printer
    carries an [align] key. *)
Theorem center_block_never_centres (depth : nat)
        (self_process : pyval -> M unit) (s : gmap string pyval) :
  process depth center_ab fresh = (Raise TypeError, fresh) /\
  actions fresh !! "center" = None /\
  center self_process center_lines fresh = (Raise NotAContextManager, fresh) /\
  __enter__ (inner [("align", VStr "center")]) fresh
  = (Raise AttributeError, fresh) /\
  exists pushed, PrinterState.get_kwargs s = Ok pushed /\
                 "align" ∉ pushed.*1.
Proof.
  split; [destruct depth; apply process_body_dict|].
  split; [vm_compute; reflexivity|].
  split; [apply (block_raises self_process [("align", VStr "center")])|].
  split; [vm_compute; reflexivity|].
  destruct (get_kwargs_total s) as [pushed Hp]. exists pushed.
  split; [exact Hp|]. rewrite (get_kwargs_keys _ _ Hp).
  unfold PrinterState.keys. intros Hin.
  repeat (apply elem_of_cons in Hin as [Hin|Hin]; [discriminate Hin|]).
  by apply elem_of_nil in Hin.
Qed.

(** * Further properties of the code *)

(** ** [PrinterState] *)

Lemma collect_Forall2 {A B} (f : A -> outcome B) (l : list A) (bs : list B) :
  collect f l = Ok bs -> Forall2 (fun a b => f a = Ok b) l bs.
Proof.
  revert bs. induction l as [|a rest IH]; intros bs; simpl.
  - intros [= <-]. constructor.
  - destruct (f a) as [b|] eqn:Hb; [|done].
    destruct (collect f rest) as [bs'|]; [|done].
    intros [= <-]. constructor; [done | by apply IH].
Qed.

Lemma get_kwargs_values (s : gmap string pyval) (pushed : kwargs) :
  PrinterState.get_kwargs s = Ok pushed ->
  Forall (fun p => PrinterState.getattr s p.1 = Ok p.2) pushed.
Proof.
  intros H. apply collect_Forall2 in H.
  induction H as [|k p ks ps Hp _ IH]; constructor; [|done].
  destruct (PrinterState.getattr s k) as [v|] eqn:Hv; [|done].
  injection Hp as <-. exact Hv.
Qed.

(** X1.  [get_kwargs] never fails; what it returns carries exactly the
    twelve declared keys, in the declared order, each with the value
    [getattr] gives it.  An attribute that was set on the instance but is not
    declared never appears. *)
Theorem get_kwargs_reports_declared (s : gmap string pyval) :
  exists pushed,
    PrinterState.get_kwargs s = Ok pushed /\
    pushed.*1 = PrinterState.keys /\
    Forall (fun p => PrinterState.getattr s p.1 = Ok p.2) pushed /\
    forall k, k ∉ PrinterState.keys -> kw_get pushed k = None.
Proof.
  destruct (get_kwargs_total s) as [pushed Hp]. exists pushed.
  pose proof (get_kwargs_keys _ _ Hp) as Hk.
  split; [done|]. split; [done|]. split; [by apply get_kwargs_values|].
  intros k Hn. apply kw_get_None. by rewrite Hk.
Qed.

(** X2.  A [PrinterState] built with keyword arguments - plain, distinct
    names, none of them [self] - read at a plain name: an attribute named at
    construction reads as the value given, a declared attribute not named
    reads as its class default, and any other plain name is an
    AttributeError. *)
Theorem init_overrides_class_defaults (kw : kwargs) (k : string) :
  plain_kwargs kw = true ->
  NoDup kw.*1 ->
  "self" ∉ kw.*1 ->
  plain_name k = true ->
  PrinterState.getattr (PrinterState.__init__ kw) k
  = match kw_get kw k with
    | Some v => Ok v
    | None =>
        match kw_get PrinterState.class_attrs k with
        | Some d => Ok d
        | None => Raise AttributeError
        end
    end.
Proof.
  intros _ _ _ _.
  change (PrinterState.__init__ kw) with (assign kw ∅).
  rewrite getattr_assign. destruct (kw_get kw k); [done|].
  unfold PrinterState.getattr. by rewrite lookup_empty.
Qed.

Lemma init_overrides_class_defaults_witness :
  let kw := [("bold", VBool true); ("align", VStr "center")] in
  plain_kwargs kw = true /\ NoDup kw.*1 /\ ("self" ∉ kw.*1) /\
  plain_name "align" = true /\ plain_name "width" = true /\
  plain_name "colour" = true /\
  PrinterState.getattr (PrinterState.__init__ kw) "align"
  = Ok (VStr "center") /\
  PrinterState.getattr (PrinterState.__init__ kw) "width" = Ok (VInt 0) /\
  PrinterState.getattr (PrinterState.__init__ kw) "colour"
  = Raise AttributeError.
Proof.
  intros kw.
  assert (Hnd : NoDup kw.*1).
  { unfold kw. simpl. apply NoDup_cons. split.
    - intros H. apply list_elem_of_singleton in H. discriminate H.
    - apply NoDup_singleton. }
  assert (Hself : "self" ∉ kw.*1).
  { unfold kw. simpl. intros H.
    repeat (apply elem_of_cons in H as [H|H]; [discriminate H|]).
    by apply elem_of_nil in H. }
  split; [reflexivity|]. split; [exact Hnd|]. split; [exact Hself|].
  split; [reflexivity|]. split; [reflexivity|]. split; [reflexivity|].
  rewrite (init_overrides_class_defaults kw "align" eq_refl Hnd Hself eq_refl).
  rewrite (init_overrides_class_defaults kw "width" eq_refl Hnd Hself eq_refl).
  rewrite (init_overrides_class_defaults kw "colour" eq_refl Hnd Hself
             eq_refl).
  repeat split.
Defined.

(** ** Entering a scope *)

Lemma collect_Raise {A B} (f : A -> outcome B) (l : list A) (e : exn) :
  collect f l = Raise e -> exists a, a ∈ l /\ f a = Raise e.
Proof.
  induction l as [|a rest IH]; simpl; [done|].
  destruct (f a) as [b|e'] eqn:Ha.
  - destruct (collect f rest) as [bs|e'']; [done|].
    intros [= ->]. destruct IH as (a' & Hin & Hf); [done|].
    exists a'. split; [by right | done].
  - intros [= ->]. exists a. split; [left | done].
Qed.

Lemma getattr_raises (s : gmap string pyval) (k : string) (e : exn) :
  PrinterState.getattr s k = Raise e -> e = AttributeError.
Proof.
  unfold PrinterState.getattr. destruct (s !! k); [done|].
  destruct (kw_get PrinterState.class_attrs k); [done|]. by intros [= <-].
Qed.

Lemma snapshot_raises (s : gmap string pyval) (kw : kwargs) (e : exn) :
  snapshot s kw = Raise e -> e = AttributeError.
Proof.
  intros H. apply collect_Raise in H as ([k v] & _ & H). simpl in H.
  destruct (PrinterState.getattr s k) eqn:Hg; [done|].
  injection H as ->. by eapply getattr_raises.
Qed.

Lemma snapshot_values (s : gmap string pyval) (kw saved : kwargs) :
  snapshot s kw = Ok saved ->
  Forall (fun p => PrinterState.getattr s p.1 = Ok p.2) saved.
Proof.
  intros H. apply collect_Forall2 in H.
  induction H as [|[k v] p ks ps Hp _ IH]; constructor; [|done].
  simpl in Hp. destruct (PrinterState.getattr s k) as [w|] eqn:Hw; [|done].
  injection Hp as <-. exact Hw.
Qed.

Lemma enter_ok_run (kw : kwargs) (j : Job) :
  (forall k, k ∈ kw.*1 -> is_ok (PrinterState.getattr (state j) k) = true) ->
  exists saved pushed,
    __enter__ (inner kw) j
    = (Ok (mkContext kw (Some saved)),
       mkJob (printer j ++ [CmdSet pushed]) (assign kw (state j)) (actions j))
    /\ snapshot (state j) kw = Ok saved
    /\ PrinterState.get_kwargs (assign kw (state j)) = Ok pushed.
Proof.
  intros Hattrs.
  destruct (collect_total
              (fun p : string * pyval =>
                 match PrinterState.getattr (state j) p.1 with
                 | Ok v => Ok (p.1, v)
                 | Raise e => Raise e
                 end) kw) as [saved Hsaved].
  { intros [k v] Hin. simpl.
    assert (Hk : k ∈ kw.*1) by (apply list_elem_of_fmap; by exists (k, v)).
    specialize (Hattrs k Hk).
    destruct (PrinterState.getattr (state j) k); [eauto | done]. }
  fold (snapshot (state j) kw) in Hsaved.
  destruct (set_state_run kw j) as (pushed & Hpushed & Hrun).
  exists saved, pushed. by rewrite enter_run, Hsaved, Hrun.
Qed.

(** X3.  When every overridden key is an attribute of the state,
    [__enter__] succeeds: [was] holds exactly the overridden keys, in order,
    each with the value it had before entry; the state is the old one with
    the overrides assigned; and the printer receives one [set] carrying the
    new style. *)
Theorem enter_saves_and_applies (kw : kwargs) (j : Job) :
  plain_kwargs kw = true ->
  (forall k, k ∈ kw.*1 -> is_ok (PrinterState.getattr (state j) k) = true) ->
  exists saved pushed,
    __enter__ (inner kw) j
    = (Ok (mkContext kw (Some saved)),
       mkJob (printer j ++ [CmdSet pushed]) (assign kw (state j)) (actions j))
    /\ saved.*1 = kw.*1
    /\ Forall (fun p => PrinterState.getattr (state j) p.1 = Ok p.2) saved
    /\ PrinterState.get_kwargs (assign kw (state j)) = Ok pushed.
Proof.
  intros _ Hattrs.
  destruct (enter_ok_run kw j Hattrs) as (saved & pushed & Hrun & Hs & Hp).
  exists saved, pushed. split; [done|].
  split; [by apply (snapshot_spec _ _ _ Hs)|].
  split; [by apply snapshot_values with kw | done].
Qed.

Lemma enter_saves_and_applies_witness :
  let kw := [("bold", VBool true); ("width", VInt 2)] in
  plain_kwargs kw = true /\
  (forall k, k ∈ kw.*1 -> is_ok (PrinterState.getattr (state fresh) k) = true)
  /\ exists pushed,
    __enter__ (inner kw) fresh
    = (Ok (mkContext kw (Some [("bold", VBool false); ("width", VInt 0)])),
       mkJob (printer fresh ++ [CmdSet pushed]) (assign kw (state fresh))
             (actions fresh)).
Proof.
  intros kw.
  assert (Hattrs : forall k, k ∈ kw.*1 ->
            is_ok (PrinterState.getattr (state fresh) k) = true).
  { intros k Hk. unfold kw in Hk. simpl in Hk.
    apply elem_of_cons in Hk as [->|Hk]; [reflexivity|].
    apply list_elem_of_singleton in Hk as ->. reflexivity. }
  split; [reflexivity|]. split; [exact Hattrs|].
  destruct (enter_saves_and_applies kw fresh eq_refl Hattrs)
    as (saved & pushed & Hrun & _).
  exists pushed. rewrite Hrun. f_equal. f_equal. f_equal.
  assert (Hs : snapshot (state fresh) kw
               = Ok [("bold", VBool false); ("width", VInt 0)])
    by (vm_compute; reflexivity).
  rewrite enter_run, Hs in Hrun. by injection Hrun as -> _.
Defined.

(** X4.  When some overridden key - the keys being plain names - is
    neither set on the state object nor declared by the class, [__enter__]
    raises AttributeError before it assigns anything: the job is exactly as
    it was, nothing is sent, and a block under that context raises without
    running its body. *)
Theorem enter_fails_without_effect (kw : kwargs) (body : M unit) (j : Job)
        (k : string) :
  plain_kwargs kw = true ->
  k ∈ kw.*1 ->
  state j !! k = None ->
  k ∉ PrinterState.class_attrs.*1 ->
  __enter__ (inner kw) j = (Raise AttributeError, j) /\
  scoped kw body j = (Raise AttributeError, j).
Proof.
  intros _ Hin Hinst Hclass.
  assert (Hk : PrinterState.getattr (state j) k = Raise AttributeError).
  { unfold PrinterState.getattr. rewrite Hinst.
    apply kw_get_None in Hclass. by rewrite Hclass. }
  assert (Henter : __enter__ (inner kw) j = (Raise AttributeError, j)).
  { rewrite enter_run.
    destruct (snapshot (state j) kw) as [saved|e] eqn:Hs.
    - exfalso. destruct (snapshot_spec _ _ _ Hs) as [Hkeys _].
      pose proof (snapshot_values _ _ _ Hs) as Hvals.
      rewrite <- Hkeys in Hin. apply list_elem_of_fmap in Hin as (p & -> & Hp).
      rewrite Forall_forall in Hvals. specialize (Hvals p Hp). congruence.
    - by rewrite (snapshot_raises _ _ _ Hs). }
  split; [exact Henter|].
  unfold scoped, with_stmt, bind. by rewrite Henter.
Qed.

Lemma enter_fails_without_effect_witness :
  let kw := [("bold", VBool true); ("align", VStr "center")] in
  let body := send (CmdTextln (VStr "a")) in
  plain_kwargs kw = true /\
  ("align" ∈ kw.*1) /\
  state fresh !! "align" = None /\
  ("align" ∉ PrinterState.class_attrs.*1) /\
  scoped kw body fresh = (Raise AttributeError, fresh).
Proof.
  intros kw body.
  assert (Hin : "align" ∈ kw.*1) by (right; left).
  assert (Hinst : state fresh !! "align" = None) by (vm_compute; reflexivity).
  assert (Hclass : "align" ∉ PrinterState.class_attrs.*1).
  { unfold PrinterState.class_attrs. simpl. intros H.
    repeat (apply elem_of_cons in H as [H|H]; [discriminate H|]).
    by apply elem_of_nil in H. }
  split; [reflexivity|].
  split; [exact Hin|]. split; [exact Hinst|]. split; [exact Hclass|].
  apply (enter_fails_without_effect kw body fresh "align" eq_refl Hin Hinst
           Hclass).
Defined.

(** ** The printer follows the state *)

Lemma last_style_set (log : list command) (st : kwargs) :
  last_style (log ++ [CmdSet st]) = Some st.
Proof.
  induction log as [|c rest IH]; [done|]. simpl. by rewrite IH.
Qed.

Lemma last_style_other (log : list command) (c : command) :
  (forall st, c <> CmdSet st) -> last_style (log ++ [c]) = last_style log.
Proof.
  intros Hc. induction log as [|c' rest IH]; simpl.
  - destruct c as [st| | |]; [by destruct (Hc st) | done..].
  - by rewrite IH.
Qed.

Lemma set_state_synced (kw : kwargs) (j : Job) : synced (set_state kw j).2.
Proof.
  destruct (set_state_run kw j) as (pushed & Hp & ->). simpl.
  exists pushed. split; [apply last_style_set | exact Hp].
Qed.

Lemma send_synced (c : command) (j : Job) :
  (forall st, c <> CmdSet st) -> synced j -> synced (send c j).2.
Proof.
  intros Hc (st & Hlast & Hst). exists st. simpl.
  split; [by rewrite last_style_other | exact Hst].
Qed.

(** X5.  The style last sent to the printer is the style of the state
    object: the constructor and every [set_state] establish this, the leaf
    handlers [textline] and [newline] keep it, and so does a block run under
    a context, whatever its body does and whether or not it raises. *)
Theorem printer_style_in_sync (log : list command) (kw : kwargs)
        (body : M unit) (text : pyval) (j : Job) :
  plain_kwargs kw = true ->
  synced (Job__init__ log).2 /\
  synced (set_state kw j).2 /\
  (synced j ->
   synced (textline text j).2 /\
   synced (newline j).2 /\
   synced (scoped kw body j).2).
Proof.
  intros _. split; [|split; [apply set_state_synced|]].
  - unfold Job__init__.
    pose proof (set_state_synced [] (mkJob log (PrinterState.__init__ []) ∅))
      as Hs.
    destruct (set_state [] (mkJob log (PrinterState.__init__ []) ∅))
      as [r j0]. exact Hs.
  - intros Hj. split; [by apply send_synced|]. split; [by apply send_synced|].
    unfold scoped, with_stmt. unfold bind at 1.
    destruct (__enter__ (inner kw) j) as [[c1|e] j1] eqn:Henter.
    + rewrite enter_run in Henter.
      destruct (snapshot (state j) kw) as [saved|]; [|done].
      injection Henter as <- _.
      destruct (body j1) as [[u|e] j2]; unfold bind; rewrite exit_run; simpl;
        apply set_state_synced.
    + rewrite enter_run in Henter.
      destruct (snapshot (state j) kw); [done|].
      by injection Henter as _ <-.
Qed.

Lemma printer_style_in_sync_witness :
  let kw := [("bold", VBool true)] in
  let body := send (CmdTextln (VStr "hi")) >>> raise (OtherError "jam") in
  plain_kwargs kw = true /\ synced (scoped kw body fresh).2.
Proof.
  intros kw body. split; [reflexivity|].
  destruct (printer_style_in_sync [] kw body VNone fresh eq_refl)
    as (Hfresh & _ & Hkeep).
  apply Hkeep. exact Hfresh.
Defined.

(** ** Composing [set_state] *)

Lemma lookup_assign (kw : kwargs) (s : gmap string pyval) (k : string) :
  assign kw s !! k
  = match kw_get kw k with Some v => Some v | None => s !! k end.
Proof.
  revert s. induction kw as [|[k' v] rest IH]; intros s; [done|].
  unfold assign in *. simpl. rewrite IH.
  destruct (kw_get rest k); [done|].
  unfold PrinterState.setattr. rewrite lookup_insert.
  by destruct (decide (k' = k)).
Qed.

Lemma kw_get_NoDup (kw : kwargs) (k : string) (v : pyval) :
  NoDup kw.*1 -> kw_get kw k = Some v <-> (k, v) ∈ kw.
Proof.
  induction kw as [|[k' v'] rest IH]; simpl; intros Hnd.
  - split; [done | by intros ?%elem_of_nil].
  - apply NoDup_cons in Hnd as [Hfresh Hnd]. rewrite elem_of_cons.
    destruct (kw_get rest k) as [w|] eqn:Hw.
    + assert (Hin : k ∈ rest.*1) by by eapply kw_get_Some_elem.
      rewrite <- (IH Hnd). split; [by right|].
      intros [[= -> ->]|H]; [done | exact H].
    + apply kw_get_None in Hw.
      destruct (decide (k' = k)) as [->|Hne].
      * split; [intros [= ->]; by left|].
        intros [[= ->]|H]; [done|].
        destruct Hw. apply list_elem_of_fmap. by exists (k, v).
      * split; [done|]. intros [[= -> ->]|H]; [done|].
        destruct Hw. apply list_elem_of_fmap. by exists (k, v).
Qed.

(** X6.  Two [set_state] calls in a row, on keywords that share no name,
    leave the state one call with all the keywords would leave, and put the
    printer in the same final style; the only difference is the intermediate
    style pushed in between. *)
Theorem set_state_composes (kw1 kw2 : kwargs) (j : Job) :
  plain_kwargs kw1 = true ->
  plain_kwargs kw2 = true ->
  NoDup ((kw1 ++ kw2)%list).*1 ->
  exists mid final,
    (set_state kw1 >>> set_state kw2) j
    = (Ok tt, mkJob (printer j ++ [CmdSet mid; CmdSet final])
                    (assign (kw1 ++ kw2) (state j)) (actions j)) /\
    set_state (kw1 ++ kw2) j
    = (Ok tt, mkJob (printer j ++ [CmdSet final])
                    (assign (kw1 ++ kw2) (state j)) (actions j)).
Proof.
  intros _ _ _.
  destruct (set_state_run kw1 j) as (mid & _ & H1).
  destruct (set_state_run (kw1 ++ kw2) j) as (final & Hfinal & H12).
  exists mid, final. split; [|exact H12].
  unfold bind. rewrite H1.
  destruct (set_state_run kw2
              (mkJob (printer j ++ [CmdSet mid]) (assign kw1 (state j))
                     (actions j))) as (final' & Hfinal' & ->).
  simpl in *. unfold assign in *. rewrite fold_left_app in Hfinal.
  rewrite Hfinal in Hfinal'. injection Hfinal' as <-.
  by rewrite fold_left_app, <- app_assoc.
Qed.

Lemma set_state_composes_witness :
  let kw1 := [("bold", VBool true)] in
  let kw2 := [("invert", VBool true); ("width", VInt 2)] in
  plain_kwargs kw1 = true /\ plain_kwargs kw2 = true /\
  NoDup ((kw1 ++ kw2)%list).*1 /\
  state ((set_state kw1 >>> set_state kw2) fresh).2
  = state (set_state (kw1 ++ kw2) fresh).2.
Proof.
  intros kw1 kw2.
  assert (Hnd : NoDup ((kw1 ++ kw2)%list).*1).
  { unfold kw1, kw2. simpl. repeat (apply NoDup_cons; split).
    - intros H.
      repeat (apply elem_of_cons in H as [H|H]; [discriminate H|]).
      by apply elem_of_nil in H.
    - intros H. apply list_elem_of_singleton in H. discriminate H.
    - intros H. by apply elem_of_nil in H.
    - apply NoDup_nil_2. }
  split; [reflexivity|]. split; [reflexivity|]. split; [exact Hnd|].
  destruct (set_state_composes kw1 kw2 fresh eq_refl eq_refl Hnd)
    as (mid & final & -> & ->).
  reflexivity.
Defined.

(** X7.  The order in which keywords reach [set_state] does not matter: for
    keyword lists with distinct names that are rearrangements of one another
    the call has the same outcome, state and printer log. *)
Theorem set_state_ignores_keyword_order (kw kw' : kwargs) (j : Job) :
  plain_kwargs kw = true ->
  NoDup kw.*1 ->
  kw ≡ₚ kw' ->
  set_state kw j = set_state kw' j.
Proof.
  intros _ Hnd Hperm.
  assert (Hnd' : NoDup kw'.*1) by by rewrite <- Hperm.
  assert (Hassign : assign kw (state j) = assign kw' (state j)).
  { apply map_eq. intros k. rewrite !lookup_assign.
    destruct (kw_get kw k) as [v|] eqn:Hv.
    - apply (kw_get_NoDup _ _ _ Hnd) in Hv. rewrite Hperm in Hv.
      apply (kw_get_NoDup _ _ _ Hnd') in Hv. by rewrite Hv.
    - apply kw_get_None in Hv. rewrite Hperm in Hv.
      apply kw_get_None in Hv. by rewrite Hv. }
  destruct (set_state_run kw j) as (pushed & Hp & ->).
  destruct (set_state_run kw' j) as (pushed' & Hp' & ->).
  rewrite Hassign in Hp. rewrite Hp in Hp'. injection Hp' as <-.
  by rewrite Hassign.
Qed.

Lemma set_state_ignores_keyword_order_witness :
  let kw := [("bold", VBool true); ("width", VInt 2)] in
  let kw' := [("width", VInt 2); ("bold", VBool true)] in
  plain_kwargs kw = true /\ NoDup kw.*1 /\ kw ≡ₚ kw' /\
  set_state kw fresh = set_state kw' fresh.
Proof.
  intros kw kw'.
  assert (Hnd : NoDup kw.*1).
  { unfold kw. simpl. apply NoDup_cons. split.
    - intros H. apply list_elem_of_singleton in H. discriminate H.
    - apply NoDup_singleton. }
  assert (Hperm : kw ≡ₚ kw') by apply perm_swap.
  split; [reflexivity|]. split; [exact Hnd|]. split; [exact Hperm|].
  apply (set_state_ignores_keyword_order kw kw' fresh eq_refl Hnd Hperm).
Defined.

(** ** The constructor, the registry and dispatch *)

Lemma Job__init__run (log : list command) :
  Job__init__ log
  = (Ok tt, mkJob (log ++ [CmdSet PrinterState.class_attrs]) ∅ get_actions).
Proof.
  unfold Job__init__.
  destruct (set_state_run [] (mkJob log (PrinterState.__init__ []) ∅))
    as (pushed & Hp & ->).
  change (PrinterState.get_kwargs ∅ = Ok pushed) in Hp.
  assert (Hd : PrinterState.get_kwargs ∅ = Ok PrinterState.class_attrs)
    by (vm_compute; reflexivity).
  rewrite Hd in Hp. by injection Hp as <-.
Qed.

(** X8.  On a job as the constructor leaves it, no action can be looked up
    and run: a name other than [bold] is a KeyError (a TypeError when the
    name is unhashable), and [bold], the one registered handler, raises at
    its [with] statement.  In every case the job is left unchanged. *)
Theorem no_registered_action_runs (self_process : pyval -> M unit)
        (log : list command) (name args : pyval) :
  (let! action := lookup_action name in call self_process action args)
    (Job__init__ log).2
  = (Raise (if hashable name then
              match name with
              | VStr s =>
                  if decide (s = "bold") then NotAContextManager else KeyError
              | _ => KeyError
              end
            else TypeError),
     (Job__init__ log).2).
Proof.
  rewrite Job__init__run. simpl. unfold bind, lookup_action.
  destruct (hashable name) eqn:Hh; [|done].
  destruct name as [| | |s| | | |]; try done. simpl.
  unfold get_actions. destruct (decide (s = "bold")) as [->|Hne].
  - by rewrite lookup_singleton_eq.
  - by rewrite lookup_singleton_ne.
Qed.

(** X9.  [process] and [print] never return normally.  On a mapping the
    subscript of the items view is a TypeError, on anything else the missing
    [items] method is an AttributeError; either way the job is unchanged, so
    [print] sends nothing, not even the cut. *)
Theorem print_never_returns (depth : nat) (msg : pyval) (j : Job) :
  let e := match msg with VDict _ => TypeError | _ => AttributeError end in
  process depth msg j = (Raise e, j) /\
  print depth msg j = (Raise e, j).
Proof.
  intros e.
  assert (H : process depth msg j = (Raise e, j))
    by (destruct depth, msg; reflexivity).
  split; [exact H|]. unfold print, bind. by rewrite H.
Qed.

(** ** Blocks under a context *)

Lemma get_kwargs_state_eq (s s' : gmap string pyval) :
  state_eq s s' -> PrinterState.get_kwargs s = PrinterState.get_kwargs s'.
Proof.
  intros Heq. unfold PrinterState.get_kwargs.
  induction PrinterState.keys as [|k rest IH]; [done|].
  simpl. by rewrite (Heq k), IH.
Qed.

(** X10.  A block run under a context whose keys are all attributes sends
    exactly: the style with the overrides, then what the body sends, then the
    style that held before the block - provided the body only appends to the
    printer log and leaves the attributes outside the override as they were.
    The outcome of the block is the outcome of its body. *)
Theorem scoped_brackets_body (kw : kwargs) (body : M unit) (j j2 : Job)
        (r : outcome unit) (out : list command) :
  plain_kwargs kw = true ->
  (forall k, k ∈ kw.*1 -> is_ok (PrinterState.getattr (state j) k) = true) ->
  body (__enter__ (inner kw) j).2 = (r, j2) ->
  printer j2 = (printer (__enter__ (inner kw) j).2 ++ out)%list ->
  agree_outside kw (state j2) (state j) ->
  exists inside before,
    PrinterState.get_kwargs (assign kw (state j)) = Ok inside /\
    PrinterState.get_kwargs (state j) = Ok before /\
    is_ok (scoped kw body j).1 = is_ok r /\
    printer (scoped kw body j).2
    = (printer j ++ [CmdSet inside] ++ out ++ [CmdSet before])%list /\
    state_eq (state (scoped kw body j).2) (state j).
Proof.
  intros Hplain Hattrs Hbody Hlog Hout.
  destruct (enter_ok_run kw j Hattrs) as (saved & inside & Henter & _ & Hinside).
  destruct (get_kwargs_total (state j)) as [before Hbefore].
  rewrite Henter in Hbody, Hlog. simpl in Hbody, Hlog.
  destruct (exit_after_enter kw j _ _ j2 Henter Hout) as (j3 & Hexit & Heq).
  assert (Hscoped : scoped kw body j
                    = (match r with Ok _ => Ok tt | Raise e => Raise e end,
                       j3)).
  { unfold scoped, with_stmt. unfold bind at 1. rewrite Henter, Hbody.
    destruct r; unfold bind; by rewrite Hexit. }
  rewrite Hscoped. simpl.
  exists inside, before. split; [done|]. split; [done|].
  split; [by destruct r|]. split; [|done].
  rewrite exit_run in Hexit. injection Hexit as <-.
  destruct (set_state_run saved j2) as (pushed & Hpushed & Hrun).
  assert (Hsame : pushed = before).
  { assert (PrinterState.get_kwargs (state (set_state saved j2).2)
            = PrinterState.get_kwargs (state j)) as Hg.
    { by apply get_kwargs_state_eq. }
    rewrite Hrun in Hg. simpl in Hg. congruence. }
  rewrite Hrun. simpl. rewrite Hlog, Hsame. by rewrite <- !app_assoc.
Qed.

Lemma scoped_brackets_body_witness :
  let kw := [("bold", VBool true)] in
  let body := send (CmdTextln (VStr "hi")) in
  let j1 := (__enter__ (inner kw) fresh).2 in
  let out := [CmdTextln (VStr "hi")] in
  plain_kwargs kw = true /\
  (forall k, k ∈ kw.*1 -> is_ok (PrinterState.getattr (state fresh) k) = true)
  /\ body j1 = (Ok tt, (body j1).2)
  /\ printer (body j1).2 = (printer j1 ++ out)%list
  /\ agree_outside kw (state (body j1).2) (state fresh)
  /\ printer (scoped kw body fresh).2
     = [CmdSet (style false); CmdSet (style true); CmdTextln (VStr "hi");
        CmdSet (style false)].
Proof.
  intros kw body j1 out.
  assert (Hattrs : forall k, k ∈ kw.*1 ->
            is_ok (PrinterState.getattr (state fresh) k) = true).
  { intros k Hk. apply list_elem_of_singleton in Hk as ->. reflexivity. }
  assert (Hout : agree_outside kw (state (body j1).2) (state fresh)).
  { destruct (enter_ok_run kw fresh Hattrs) as (saved & pushed & Henter & _).
    apply (enter_frame kw fresh _ _ Henter). }
  split; [reflexivity|]. split; [exact Hattrs|]. split; [reflexivity|].
  split; [reflexivity|]. split; [exact Hout|].
  destruct (scoped_brackets_body kw body fresh (body j1).2 (Ok tt) out
              eq_refl Hattrs eq_refl eq_refl Hout)
    as (inside & before & Hinside & Hbefore & _ & -> & _).
  assert (Hi : PrinterState.get_kwargs (assign kw (state fresh))
               = Ok (style true)) by (vm_compute; reflexivity).
  assert (Hb : PrinterState.get_kwargs (state fresh) = Ok (style false))
    by (vm_compute; reflexivity).
  rewrite Hi in Hinside. rewrite Hb in Hbefore.
  injection Hinside as <-. injection Hbefore as <-. reflexivity.
Defined.

(** ** Building a [JSONJob] *)

Lemma dict_pop_None (k : string) (d : list (string * pyval)) :
  dict_get k d = None -> dict_pop k d = None.
Proof.
  induction d as [|[k' v] rest IH]; simpl; [done|].
  destruct (decide (k' = k)); [done|]. intros H. by rewrite (IH H).
Qed.

Lemma dict_pop_Some (k : string) (d : list (string * pyval)) (v : pyval) :
  dict_get k d = Some v ->
  exists d', dict_pop k d = Some (v, d') /\
             forall k', k' <> k -> dict_get k' d' = dict_get k' d.
Proof.
  induction d as [|[k0 v0] rest IH]; simpl; [done|].
  destruct (decide (k0 = k)) as [->|Hne].
  - intros [= ->]. exists rest. split; [done|].
    intros k' Hk'. by rewrite decide_False.
  - intros H. destruct (IH H) as (d' & -> & Hd'). eexists. split; [done|].
    intros k' Hk'. simpl. destruct (decide (k0 = k')); [done | by apply Hd'].
Qed.

Lemma dict_get_None (k : string) (d : list (string * pyval)) :
  dict_get k d = None <-> k ∉ d.*1.
Proof.
  induction d as [|[k' v] rest IH]; simpl.
  - split; [intros _; apply not_elem_of_nil | done].
  - rewrite not_elem_of_cons, <- IH.
    destruct (decide (k' = k)) as [->|Hne]; intuition congruence.
Qed.

Lemma JSONJob__init__run (log : list command)
      (data : list (string * pyval)) :
  JSONJob__init__ log data
  = match dict_get "contents" data with
    | Some cs =>
        Ok (mkJSONJob (Job__init__ log).2
                      (default VNone (dict_get "meta" data)) cs)
    | None => Raise KeyError
    end.
Proof.
  unfold JSONJob__init__. rewrite Job__init__run. simpl.
  destruct (dict_get "meta" data) as [m|] eqn:Hm.
  - destruct (dict_pop_Some _ _ _ Hm) as (d1 & -> & Hd1). simpl.
    rewrite <- (Hd1 "contents") by done.
    destruct (dict_get "contents" d1) as [cs|] eqn:Hc.
    + by destruct (dict_pop_Some _ _ _ Hc) as (d2 & -> & _).
    + by rewrite (dict_pop_None _ _ Hc).
  - rewrite (dict_pop_None _ _ Hm). simpl.
    destruct (dict_get "contents" data) as [cs|] eqn:Hc.
    + by destruct (dict_pop_Some _ _ _ Hc) as (d2 & -> & _).
    + by rewrite (dict_pop_None _ _ Hc).
Qed.

(** X11.  [JSONJob(printer, data)] raises KeyError exactly when [data] has
    no [contents] entry.  Otherwise the job holds the value of [contents],
    the value of [meta] or None when there is none, and a base job built as
    by [Job]; taking [meta] out first does not disturb [contents]. *)
Theorem json_job_init_reads_data (log : list command)
        (data : list (string * pyval)) :
  (JSONJob__init__ log data = Raise KeyError <-> "contents" ∉ data.*1) /\
  JSONJob__init__ log data
  = match dict_get "contents" data with
    | Some cs =>
        Ok (mkJSONJob (Job__init__ log).2
                      (default VNone (dict_get "meta" data)) cs)
    | None => Raise KeyError
    end.
Proof.
  split; [|apply JSONJob__init__run].
  rewrite JSONJob__init__run, <- dict_get_None.
  by destruct (dict_get "contents" data).
Qed.

(** X12.  A [JSONJob] built from data whose [contents] is a list, then told
    to [do_print], sends the printer the baseline style of the constructor
    and nothing else: no node of the contents is interpreted and no cut
    follows. *)
Theorem json_job_sends_only_baseline (log : list command)
        (data : list (string * pyval)) (cs : list pyval) :
  dict_get "contents" data = Some (VList cs) ->
  exists self,
    JSONJob__init__ log data = Ok self /\
    contents self = VList cs /\
    do_print self = (Ok tt, self) /\
    printer (base self) = (log ++ [CmdSet PrinterState.class_attrs])%list.
Proof.
  intros Hc. rewrite JSONJob__init__run, Hc. eexists.
  split; [done|]. split; [done|]. rewrite Job__init__run. simpl.
  split; [|done].
  unfold do_print, bind, lift. simpl. by rewrite pass_loop.
Qed.

Lemma json_job_sends_only_baseline_witness :
  exists cs,
    dict_get "contents" foo = Some (VList cs) /\
    length cs = 3%nat /\
    exists self,
      JSONJob__init__ [] foo = Ok self /\
      meta self = VDict [] /\
      do_print self = (Ok tt, self) /\
      printer (base self) = [CmdSet PrinterState.class_attrs].
Proof.
  eexists. split; [reflexivity|]. split; [reflexivity|].
  destruct (json_job_sends_only_baseline [] foo _ eq_refl)
    as (self & Hinit & _ & Hprint & Hlog).
  exists self. split; [exact Hinit|]. split; [|split; [exact Hprint|exact Hlog]].
  rewrite JSONJob__init__run in Hinit. simpl in Hinit.
  by injection Hinit as <-.
Defined.

(** ** Building a [Job] *)

(** X13.  [Job(printer)] never fails and sends the printer exactly one
    command, a [set] carrying the twelve class defaults; the state object it
    creates has no attribute of its own, so a declared attribute reads as its
    default and any other plain name is an AttributeError; and the registry
    it installs is [get_actions]. *)
Theorem constructor_pushes_defaults (log : list command) (k : string) :
  plain_name k = true ->
  (Job__init__ log).1 = Ok tt /\
  printer (Job__init__ log).2
  = (log ++ [CmdSet PrinterState.class_attrs])%list /\
  PrinterState.getattr (state (Job__init__ log).2) k
  = match kw_get PrinterState.class_attrs k with
    | Some d => Ok d
    | None => Raise AttributeError
    end /\
  actions (Job__init__ log).2 = get_actions.
Proof.
  intros _. rewrite Job__init__run. simpl. repeat split.
Qed.

Lemma constructor_pushes_defaults_witness :
  plain_name "align" = true /\
  printer (Job__init__ [CmdLn]).2
  = [CmdLn; CmdSet PrinterState.class_attrs] /\
  PrinterState.getattr (state (Job__init__ [CmdLn]).2) "align"
  = Raise AttributeError.
Proof.
  split; [reflexivity|].
  destruct (constructor_pushes_defaults [CmdLn] "align" eq_refl)
    as (_ & Hlog & Hattr & _).
  split; [exact Hlog | exact Hattr].
Defined.
